(** * app.py: a two-route Flask application

    The program under verification is [src/app.py]:

<<
    from flask import Flask
    app = Flask(__name__)

    @app.route('/')
    def hello():
        return "Hello, from Flask App updated!"

    @app.route('/new')
    def new_route():
        return "This is a new route!"

    if __name__ == '__main__':
        app.run(host='0.0.0.0')
>>

    Every statement of the module is a call into Flask, so the embedding has
    two layers.  [Module Werkzeug] and [Module FlaskFramework] embed the parts
    of Werkzeug 3.x and Flask 3.x that those calls reach (the [Flask]
    constructor, [add_url_rule] / [route], URL matching, request dispatch,
    [run]); [Module App] embeds app.py itself on top of them, statement by
    statement.  A request is the WSGI environ the server hands to the
    application, so its path is [PATH_INFO] as received.

    The framework is embedded as far as this program exercises it: one
    application mounted at the root, no host or subdomain matching, and a
    request whose host name [Map.bind] accepts.  app.py registers no error
    handler and no request hook, so those mechanisms do not appear; neither
    does the bookkeeping Flask keeps in private attributes. *)

From Stdlib Require Import Ascii String.
From stdpp Require Import gmap strings list.

Open Scope string_scope.

(** ** Python string operations used by the framework *)

Module Py.

Definition slash : ascii := "/"%char.

Definition is_slash (c : ascii) : bool := Ascii.eqb c slash.

(** [s.lstrip("/")] *)
Fixpoint lstrip_slash (s : string) : string :=
  match s with
  | String c rest => if is_slash c then lstrip_slash rest else s
  | EmptyString => EmptyString
  end.

(** [re.sub("/{2,}", "/", s)]: every run of slashes becomes one slash. *)
Fixpoint merge_slashes_sub (s : string) : string :=
  match s with
  | String c1 tl =>
      match tl with
      | String c2 _ =>
          if is_slash c1 && is_slash c2 then merge_slashes_sub tl
          else String c1 (merge_slashes_sub tl)
      | EmptyString => s
      end
  | EmptyString => EmptyString
  end.

(** [s.endswith("/")] *)
Fixpoint endswith_slash (s : string) : bool :=
  match s with
  | EmptyString => false
  | String c EmptyString => is_slash c
  | String _ rest => endswith_slash rest
  end.

(** ["/" not in s] *)
Fixpoint slashless (s : string) : bool :=
  match s with
  | EmptyString => true
  | String c rest => negb (is_slash c) && slashless rest
  end.

(** [s[len(p):]] when [s.startswith(p)], otherwise nothing *)
Fixpoint removeprefix (p s : string) : option string :=
  match p, s with
  | EmptyString, _ => Some s
  | String a p', String b s' =>
      if Ascii.eqb a b then removeprefix p' s' else None
  | String _ _, EmptyString => None
  end.

(** [s.startswith(p)] *)
Definition startswith (s p : string) : bool :=
  match removeprefix p s with Some _ => true | None => false end.

(** [c.upper()] on the ASCII letters *)
Definition upper_char (c : ascii) : ascii :=
  let n := Ascii.nat_of_ascii c in
  if (97 <=? n)%nat && (n <=? 122)%nat then Ascii.ascii_of_nat (n - 32) else c.

(** [s.upper()] *)
Fixpoint upper (s : string) : string :=
  match s with
  | EmptyString => EmptyString
  | String c rest => String (upper_char c) (upper rest)
  end.

(** [s.partition(sep)] for a one-character separator: the text before the
    first [sep] and, when there is one, the text after it. *)
Fixpoint partition (sep : ascii) (s : string) : string * option string :=
  match s with
  | EmptyString => (EmptyString, None)
  | String c rest =>
      if Ascii.eqb c sep then (EmptyString, Some rest)
      else let '(before, after) := partition sep rest in (String c before, after)
  end.

(** [c.lower()] on the ASCII letters *)
Definition lower_char (c : ascii) : ascii :=
  let n := Ascii.nat_of_ascii c in
  if (65 <=? n)%nat && (n <=? 90)%nat then Ascii.ascii_of_nat (n + 32) else c.

(** [s.lower()] *)
Fixpoint lower (s : string) : string :=
  match s with
  | EmptyString => EmptyString
  | String c rest => String (lower_char c) (lower rest)
  end.

(** [c.isspace()] for a character of a WSGI (latin-1) string *)
Definition is_space (c : ascii) : bool :=
  let n := Ascii.nat_of_ascii c in
  ((9 <=? n)%nat && (n <=? 13)%nat) || ((28 <=? n)%nat && (n <=? 32)%nat)
  || (n =? 133)%nat || (n =? 160)%nat.

Fixpoint lstrip (s : string) : string :=
  match s with
  | String c rest => if is_space c then lstrip rest else s
  | EmptyString => EmptyString
  end.

Fixpoint rstrip (s : string) : string :=
  match s with
  | String c rest =>
      match rstrip rest with
      | EmptyString => if is_space c then EmptyString else String c EmptyString
      | kept => String c kept
      end
  | EmptyString => EmptyString
  end.

(** [s.strip()] *)
Definition strip (s : string) : string := lstrip (rstrip s).

(** [s.split(sep)] for a one-character separator *)
Fixpoint split (sep : ascii) (s : string) : list string :=
  match s with
  | EmptyString => [EmptyString]
  | String c rest =>
      if Ascii.eqb c sep then EmptyString :: split sep rest
      else match split sep rest with
           | piece :: pieces => String c piece :: pieces
           | [] => [String c EmptyString]
           end
  end.

Definition digit (c : ascii) : option Z :=
  let n := Ascii.nat_of_ascii c in
  if (48 <=? n)%nat && (n <=? 57)%nat then Some (Z.of_nat (n - 48)) else None.

(** The digits of a decimal literal: at least one digit, and underscores
    only between two digits. *)
Fixpoint digits (s : string) (acc : Z) (after_digit : bool) : option Z :=
  match s with
  | EmptyString => if after_digit then Some acc else None
  | String c rest =>
      match digit c with
      | Some d => digits rest (10 * acc + d)%Z true
      | None =>
          if Ascii.eqb c "_" && after_digit then digits rest acc false else None
      end
  end.

(** [int(s)] on ASCII text: surrounding white space, an optional sign, a
    decimal literal; [None] for [ValueError]. *)
Definition int (s : string) : option Z :=
  match strip s with
  | String c rest =>
      if Ascii.eqb c "-" then Z.opp <$> digits rest 0%Z false
      else if Ascii.eqb c "+" then digits rest 0%Z false
      else digits (String c rest) 0%Z false
  | EmptyString => None
  end.

End Py.

(** ** Werkzeug: HTTP exceptions, responses and URL routing *)

Module Werkzeug.

(** What [MapAdapter.make_redirect_url] builds the redirect URL from: the
    adapter's scheme, the path below the application root before it is
    percent-encoded, and the query string.  The host is the request's own. *)
Record RedirectURL := {
  redirect_scheme : string;
  redirect_path : string;
  redirect_query : string
}.

(** The exceptions of [werkzeug.exceptions] and [werkzeug.routing] that
    routing and dispatch can raise. *)
Inductive HTTPException :=
| NotFound
| MethodNotAllowed (valid_methods : gset string)
| RequestRedirect (new_url : RedirectURL)
| WebsocketMismatch
| InternalServerError.

(** [HTTPException.code]; [WebsocketMismatch] is a [BadRequest]. *)
Definition code (e : HTTPException) : nat :=
  match e with
  | NotFound => 404
  | MethodNotAllowed _ => 405
  | RequestRedirect _ => 308
  | WebsocketMismatch => 400
  | InternalServerError => 500
  end.

(** A response body: the encoding of a [str], or the page that
    [HTTPException.get_body] renders for an exception. *)
Inductive Body :=
| body_text (s : string)
| body_default_page (e : HTTPException).

Record Response := {
  status_code : nat;
  data : Body;
  mimetype : string;
  allow : gset string;
  location : option RedirectURL
}.

(** [Response(response=s)]: status 200, no [Allow], no [Location]. *)
Definition Response_new (s : string) : Response :=
  {| status_code := 200; data := body_text s; mimetype := "text/html";
     allow := ∅; location := None |}.

(** [HTTPException.get_response]: the exception's code, its default page,
    and the headers of [get_headers] ([Allow] for 405, [Location] for a
    redirect). *)
Definition get_response (e : HTTPException) : Response :=
  {| status_code := code e;
     data := body_default_page e;
     mimetype := "text/html";
     allow := match e with MethodNotAllowed ms => ms | _ => ∅ end;
     location := match e with RequestRedirect url => Some url | _ => None end |}.

(** [werkzeug.routing.Rule] with the attributes matching reads.
    [provide_automatic_options] is the attribute Flask sets on the rule. *)
Record Rule := {
  rule : string;
  endpoint : string;
  methods : gset string;
  strict_slashes : bool;
  merge_slashes : bool;
  websocket : bool;
  provide_automatic_options : bool
}.

(** [Rule.__init__]: methods are upper-cased and [HEAD] is added whenever
    [GET] is present; [websocket] defaults to [False]; [strict_slashes] and
    [merge_slashes] are inherited from the [Map], whose defaults are both
    [True]. *)
Definition Rule_new (rule : string) (methods : gset string) (endpoint : string)
    (provide_automatic_options : bool) : Rule :=
  let methods := set_map (D := gset string) Py.upper methods in
  let methods :=
    if decide ("GET" ∈ methods) then methods ∪ {["HEAD"]} else methods in
  {| rule := rule; endpoint := endpoint; methods := methods;
     strict_slashes := true; merge_slashes := true; websocket := false;
     provide_automatic_options := provide_automatic_options |}.

(** The shape of a rule string.  The fragment of Werkzeug's rule syntax that
    this program reaches is static text optionally ended by one
    [<path:NAME>] variable. *)
Inductive Pattern :=
| static_pattern (text : string)
| path_pattern (prefix : string) (argument : string).

(** ["CONVERTER:NAME>"] or ["NAME>"], with nothing after the [>] *)
Definition parse_variable (s : string) : option (string * string) :=
  match Py.partition ">" s with
  | (spec, Some EmptyString) =>
      match Py.partition ":" spec with
      | (converter, Some name) => Some (converter, name)
      | (name, None) => Some ("default", name)
      end
  | _ => None
  end.

Fixpoint parse_rule (s : string) : option Pattern :=
  match s with
  | EmptyString => Some (static_pattern EmptyString)
  | String c rest =>
      if Ascii.eqb c "<" then
        match parse_variable rest with
        | Some (converter, name) =>
            if decide (converter = "path")
            then Some (path_pattern EmptyString name) else None
        | None => None
        end
      else
        match parse_rule rest with
        | Some (static_pattern t) => Some (static_pattern (String c t))
        | Some (path_pattern p a) => Some (path_pattern (String c p) a)
        | None => None
        end
  end.

Fixpoint no_newline (s : string) : bool :=
  match s with
  | EmptyString => true
  | String c rest => negb (Ascii.eqb c "010") && no_newline rest
  end.

(** [PathConverter.regex = "[^/].*?"], anchored at the end of the path *)
Definition path_converter_match (v : string) : bool :=
  match v with
  | EmptyString => false
  | String c rest => negb (Py.is_slash c) && no_newline rest
  end.

(** What one rule says about a path, before methods are looked at. *)
Inductive PathMatch :=
| path_no_match
| path_lacks_slash
| path_match (values : list (string * string)).

(** A rule without a final slash is a leaf and matches its text only.  A
    rule with one is a branch: the path that lacks only that slash is
    recognised too. *)
Definition match_path (r : Rule) (path : string) : PathMatch :=
  match parse_rule (rule r) with
  | Some (static_pattern text) =>
      if decide (path = text) then path_match []
      else if Py.endswith_slash text && bool_decide (path +:+ "/" = text)
      then path_lacks_slash
      else path_no_match
  | Some (path_pattern prefix argument) =>
      match Py.removeprefix prefix path with
      | Some v =>
          if path_converter_match v then path_match [(argument, v)]
          else path_no_match
      | None => path_no_match
      end
  | None => path_no_match
  end.

Inductive Found :=
| found (r : Rule) (values : list (string * string))
| slash_required
| nothing.

(** What a pass of the matcher has noted about the rules it passed over:
    [have_match_for], the methods of the rules whose path matched while the
    request's method was not among theirs, and [websocket_mismatch], set
    when a rule matched path and method but is not for the kind of request
    (websocket or plain HTTP) being matched. *)
Record Noted := {
  have_match_for : gset string;
  websocket_mismatch : bool
}.

(** One pass of [StateMachineMatcher.match] over the rules.  For a rule
    whose path matches, the method is tested first, then the websocket
    flag.  A path that lacks the final slash of a rule accepting the method
    and the kind of request raises the slash requirement under
    [strict_slashes] and matches otherwise. *)
Fixpoint match_rules (rules : list Rule) (path method : string)
    (is_websocket : bool) (noted : Noted) : Found * Noted :=
  match rules with
  | [] => (nothing, noted)
  | r :: rules' =>
      match match_path r path with
      | path_match values =>
          if decide (method ∈ methods r) then
            if decide (websocket r = is_websocket) then (found r values, noted)
            else match_rules rules' path method is_websocket
                   {| have_match_for := have_match_for noted;
                      websocket_mismatch := true |}
          else match_rules rules' path method is_websocket
                 {| have_match_for := have_match_for noted ∪ methods r;
                    websocket_mismatch := websocket_mismatch noted |}
      | path_lacks_slash =>
          if bool_decide (websocket r = is_websocket)
             && bool_decide (method ∈ methods r)
          then (if strict_slashes r then (slash_required, noted)
                else (found r [], noted))
          else match_rules rules' path method is_websocket noted
      | path_no_match => match_rules rules' path method is_websocket noted
      end
  end.

Inductive Matched :=
| match_ok (r : Rule) (values : list (string * string))
| raise_RequestPath (path_info : string)
| raise_NoMatch (noted : Noted).

(** [StateMachineMatcher.match]: a first pass on the path as given; when it
    finds nothing, a second pass on the path with slashes merged, whose
    only successful outcome is a redirect to the merged path. *)
Definition matcher_match (rules : list Rule) (path method : string)
    (is_websocket : bool) : Matched :=
  match match_rules rules path method is_websocket
          {| have_match_for := ∅; websocket_mismatch := false |} with
  | (found r values, _) => match_ok r values
  | (slash_required, _) => raise_RequestPath (path +:+ "/")
  | (nothing, noted) =>
      let path := Py.merge_slashes_sub path in
      match match_rules rules path method is_websocket noted with
      | (slash_required, _) => raise_RequestPath (path +:+ "/")
      | (nothing, noted) => raise_NoMatch noted
      | (found r _, noted) =>
          if merge_slashes r then raise_RequestPath path
          else raise_NoMatch noted
      end
  end.

(** [MapAdapter]: a [Map] bound to one request. *)
Record MapAdapter := {
  map : list Rule;
  url_scheme : string;
  path_info : string;
  default_method : string;
  query_args : string
}.

(** [MapAdapter.websocket]: [url_scheme in {"ws", "wss"}] *)
Definition adapter_websocket (a : MapAdapter) : bool :=
  bool_decide (url_scheme a = "ws" ∨ url_scheme a = "wss").

(** [MapAdapter.make_redirect_url], for an application mounted at the root
    (empty [SCRIPT_NAME]). *)
Definition make_redirect_url (a : MapAdapter) (path_info : string) : RedirectURL :=
  {| redirect_scheme := if decide (url_scheme a = "") then "http" else url_scheme a;
     redirect_path := Py.lstrip_slash path_info;
     redirect_query := query_args a |}.

(** The path [MapAdapter.match] hands to the matcher:
    ["/" + path_info.lstrip("/")], or [""] for an empty [path_info].  A
    run of leading slashes counts as one. *)
Definition path_part (path_info : string) : string :=
  if decide (path_info = "") then ""
  else "/" +:+ Py.lstrip_slash path_info.

(** [MapAdapter.match(method=None, return_rule=True)]; the method is
    upper-cased.  When nothing matched, a noted method mismatch is reported
    before a noted websocket mismatch. *)
Definition adapter_match (a : MapAdapter) (method : option string)
    : Rule * list (string * string) + HTTPException :=
  let method := Py.upper (default (default_method a) method) in
  match matcher_match (map a) (path_part (path_info a)) method
          (adapter_websocket a) with
  | match_ok r values => inl (r, values)
  | raise_RequestPath p => inr (RequestRedirect (make_redirect_url a p))
  | raise_NoMatch noted =>
      if decide (have_match_for noted = ∅) then
        if websocket_mismatch noted then inr WebsocketMismatch else inr NotFound
      else inr (MethodNotAllowed (have_match_for noted))
  end.

(** [MapAdapter.allowed_methods]: match with the method ["--"] and collect
    the methods a [MethodNotAllowed] reports. *)
Definition allowed_methods (a : MapAdapter) : gset string :=
  match adapter_match a (Some "--") with
  | inr (MethodNotAllowed valid_methods) => valid_methods
  | _ => ∅
  end.

End Werkzeug.

(** ** Flask: the application object, request dispatch and [run] *)

Module FlaskFramework.
Import Werkzeug.

(** The WSGI environ of one request.  [http_headers] holds the other
    [HTTP_*] entries under their environ keys ([HTTP_CONNECTION],
    [HTTP_UPGRADE], ...).  [HTTP_HOST] is a host name that [Map.bind]
    accepts. *)
Record Environ := {
  REQUEST_METHOD : string;
  PATH_INFO : string;
  QUERY_STRING : string;
  HTTP_HOST : string;
  wsgi_url_scheme : string;
  http_headers : list (string * string);
  wsgi_input : string
}.

(** The keys of [Flask.config] that [run] reads.  [SERVER_NAME] is held
    already split into host and port. *)
Record Config := {
  SERVER_NAME : option (string * option nat)
}.

(** [Flask.default_config]: [SERVER_NAME] is [None]. *)
Definition default_config : Config := {| SERVER_NAME := None |}.

(** [d.get(key, "")] on a dict given as its items *)
Fixpoint get_item (items : list (string * string)) (key : string) : string :=
  match items with
  | [] => ""
  | (k, v) :: items' => if decide (k = key) then v else get_item items' key
  end.

(** The test in [Map.bind_to_environ] for a websocket handshake:
    [upgrade] is one of the comma-separated tokens of the [Connection]
    header and the [Upgrade] header is [websocket], both read in lower
    case. *)
Definition websocket_upgrade (environ : Environ) : bool :=
  existsb (λ v, bool_decide (Py.strip v = "upgrade"))
    (Py.split "," (Py.lower (get_item (http_headers environ) "HTTP_CONNECTION")))
  && bool_decide (Py.lower (get_item (http_headers environ) "HTTP_UPGRADE") = "websocket").

(** The scheme [Map.bind_to_environ] binds the adapter with: the environ's
    own, or [ws] / [wss] for a websocket handshake. *)
Definition bind_scheme (environ : Environ) : string :=
  if websocket_upgrade environ
  then (if decide (wsgi_url_scheme environ = "https") then "wss" else "ws")
  else wsgi_url_scheme environ.

(** Whether the request is matched as a websocket request. *)
Definition is_websocket (environ : Environ) : bool :=
  bool_decide (bind_scheme environ = "ws" ∨ bind_scheme environ = "wss").

(** A view function held by the application: the static-file view that the
    constructor creates, or a function of the program. *)
Inductive ViewFunction (U : Type) :=
| send_static_file_view
| user_view (f : U).
Arguments send_static_file_view {U}.
Arguments user_view {U} f.

#[global] Instance ViewFunction_eq_dec {U} `{EqDecision U} :
  EqDecision (ViewFunction U).
Proof. solve_decision. Defined.

(** The application object.  [url_map] is the [Map]'s rule list in the
    order of registration, [view_functions] the dict from endpoint to
    view function. *)
Record Flask (U : Type) := {
  import_name : string;
  static_folder : option string;
  static_url_path : string;
  config : Config;
  url_map : list Rule;
  view_functions : gmap string (ViewFunction U)
}.
Arguments import_name {U} _.
Arguments static_folder {U} _.
Arguments static_url_path {U} _.
Arguments config {U} _.
Arguments url_map {U} _.
Arguments view_functions {U} _.

(** What a view hands back to [full_dispatch_request]. *)
Inductive Outcome :=
| return_str (s : string)
| return_response (r : Response)
| raise (e : HTTPException).

(** An address for the server to listen on. *)
Record Listener := { host : string; port : nat }.

(** The socket [run_simple] has [make_server] serve on: one it binds to an
    address, or the descriptor a reloader parent passed down. *)
Inductive ServerSocket :=
| bind_address (l : Listener)
| inherited_fd (fd : Z).

(** Code that runs while the application serves reads and may assign the
    module-level [app]: a computation over the application object. *)
Definition M (U A : Type) : Type := Flask U → A * Flask U.

Definition ret {U A} (a : A) : M U A := λ app, (a, app).

Definition bind {U A B} (m : M U A) (k : A → M U B) : M U B :=
  λ app, let '(a, app') := m app in k a app'.

Definition get_app {U} : M U (Flask U) := λ app, (app, app).

#[global] Instance M_ret U : MRet (M U) := λ A, @ret U A.
#[global] Instance M_bind U : MBind (M U) := λ A B k m, @bind U A B m k.

Section Application.
Context {U : Type} `{EqDecision U}.

(** [f.__name__] of a function of the program *)
Variable name_of : U → string.

(** Calling a function of the program with the matched [view_args]. *)
Variable call_user : U → list (string * string) → M U Outcome.

(** [flask.helpers.send_from_directory directory path environ]: the file
    as a response, or [NotFound]; it reads the file system, which is
    outside the application object. *)
Variable send_from_directory : string → string → Environ → Response + HTTPException.

Definition has_static_folder (app : Flask U) : bool :=
  bool_decide (static_folder app ≠ None).

(** [Flask.add_url_rule(rule, endpoint, view_func, methods=...)].  Without
    [methods] the rule is for [GET]; [OPTIONS] is added and answered
    automatically unless the caller listed it.  Rebinding an endpoint to
    a different function raises ([None]). *)
Definition add_url_rule (rule : string) (endpoint : string)
    (view_func : ViewFunction U) (methods : option (gset string))
    (app : Flask U) : option (Flask U) :=
  let methods := set_map (D := gset string) Py.upper (default {["GET"]} methods) in
  let provide_automatic_options := bool_decide ("OPTIONS" ∉ methods) in
  let methods :=
    if provide_automatic_options then methods ∪ {["OPTIONS"]} else methods in
  let r := Rule_new rule methods endpoint provide_automatic_options in
  match view_functions app !! endpoint with
  | Some old_func =>
      if decide (old_func = view_func)
      then Some {| import_name := import_name app;
                   static_folder := static_folder app;
                   static_url_path := static_url_path app;
                   config := config app;
                   url_map := url_map app ++ [r];
                   view_functions := view_functions app |}
      else None
  | None =>
      Some {| import_name := import_name app;
              static_folder := static_folder app;
              static_url_path := static_url_path app;
              config := config app;
              url_map := url_map app ++ [r];
              view_functions := <[endpoint := view_func]> (view_functions app) |}
  end.

(** [@app.route(rule)] applied to [f]: the endpoint is the function's
    name. *)
Definition route (rule : string) (f : U) (app : Flask U) : option (Flask U) :=
  add_url_rule rule (name_of f) (user_view f) None app.

(** [Flask(import_name)]: [static_folder] defaults to ["static"] and
    [static_url_path] to ["/static"]; since a static folder is
    configured, the constructor registers the static-file rule, whether
    or not the folder exists. *)
Definition Flask__init__ (import_name : string) : option (Flask U) :=
  let app := {| import_name := import_name;
                static_folder := Some "static";
                static_url_path := "/static";
                config := default_config;
                url_map := [];
                view_functions := ∅ |} in
  if has_static_folder app
  then add_url_rule (static_url_path app +:+ "/<path:filename>") "static"
         send_static_file_view None app
  else Some app.

(** [Flask.create_url_adapter]: [url_map.bind_to_environ(environ)]. *)
Definition create_url_adapter (app : Flask U) (environ : Environ) : MapAdapter :=
  {| map := url_map app;
     url_scheme := bind_scheme environ;
     path_info := PATH_INFO environ;
     default_method := REQUEST_METHOD environ;
     query_args := QUERY_STRING environ |}.

(** [RequestContext.match_request]: the matched rule and [view_args], or
    the routing exception. *)
Definition match_request (app : Flask U) (environ : Environ)
    : Rule * list (string * string) + HTTPException :=
  adapter_match (create_url_adapter app environ) None.

(** [Flask.send_static_file(filename)] *)
Definition send_static_file (app : Flask U) (filename : string)
    (environ : Environ) : Outcome :=
  match static_folder app with
  | Some directory =>
      match send_from_directory directory filename environ with
      | inl r => return_response r
      | inr e => raise e
      end
  | None => raise InternalServerError
  end.

(** Calling the view function with [view_args] as keyword arguments. *)
Definition call_view (f : ViewFunction U) (view_args : list (string * string))
    (environ : Environ) : M U Outcome :=
  match f with
  | user_view u => call_user u view_args
  | send_static_file_view =>
      app ← get_app;
      match view_args with
      | [(_, filename)] => mret (send_static_file app filename environ)
      | _ => mret (raise InternalServerError)
      end
  end.

(** [Flask.make_default_options_response] *)
Definition make_default_options_response (app : Flask U) (environ : Environ)
    : Response :=
  {| status_code := 200; data := body_text ""; mimetype := "text/html";
     allow := allowed_methods (create_url_adapter app environ);
     location := None |}.

(** What [dispatch_request] decides to do with a request. *)
Inductive Dispatch :=
| raise_routing_exception (e : HTTPException)
| automatic_options (r : Rule)
| no_view_function (r : Rule)
| call (f : ViewFunction U) (view_args : list (string * string)).

(** The decision of [Flask.dispatch_request]: re-raise the routing
    exception; or answer [OPTIONS] automatically; or look the endpoint
    up in [view_functions] and call what is found. *)
Definition resolve (app : Flask U) (environ : Environ) : Dispatch :=
  match match_request app environ with
  | inr e => raise_routing_exception e
  | inl (r, view_args) =>
      if provide_automatic_options r
         && bool_decide (Py.upper (REQUEST_METHOD environ) = "OPTIONS")
      then automatic_options r
      else match view_functions app !! endpoint r with
           | Some f => call f view_args
           | None => no_view_function r
           end
  end.

(** [Flask.dispatch_request] *)
Definition dispatch_request (environ : Environ) : M U Outcome :=
  app ← get_app;
  match resolve app environ with
  | raise_routing_exception e => mret (raise e)
  | automatic_options _ =>
      mret (return_response (make_default_options_response app environ))
  | no_view_function _ => mret (raise InternalServerError)
  | call f view_args => call_view f view_args environ
  end.

(** [Flask.make_response] after [handle_user_exception]: a [str] becomes
    a 200 response; an exception, for which no error handler is
    registered, becomes its own default response. *)
Definition make_response (rv : Outcome) : Response :=
  match rv with
  | return_str s => Response_new s
  | return_response r => r
  | raise e => get_response e
  end.

(** [Flask.full_dispatch_request] *)
Definition full_dispatch_request (environ : Environ) : M U Response :=
  rv ← dispatch_request environ;
  mret (make_response rv).

(** [Response.__call__]: nothing of the body is sent when
    [environ["REQUEST_METHOD"] == "HEAD"]. *)
Definition send_body (environ : Environ) (r : Response) : Response :=
  if decide (REQUEST_METHOD environ = "HEAD")
  then {| status_code := status_code r; data := body_text "";
          mimetype := mimetype r; allow := allow r; location := location r |}
  else r.

(** [Flask.wsgi_app]: the application called on one request. *)
Definition wsgi_app (environ : Environ) : M U Response :=
  response ← full_dispatch_request environ;
  mret (send_body environ response).

(** The server loop: the requests are handled one after the other. *)
Fixpoint serve_forever (requests : list Environ) : M U (list Response) :=
  match requests with
  | [] => mret []
  | environ :: requests' =>
      response ← wsgi_app environ;
      responses ← serve_forever requests';
      mret (response :: responses)
  end.

(** [flask.helpers.get_load_dotenv(default=True)]: dotenv files are loaded
    unless [FLASK_SKIP_DOTENV] is set to something other than ["0"],
    ["false"] or ["no"]. *)
Definition get_load_dotenv (os_environ : gmap string string) : bool :=
  match os_environ !! "FLASK_SKIP_DOTENV" with
  | None => true
  | Some val =>
      if decide (val = "") then true
      else bool_decide (Py.lower val ∈ ["0"; "false"; "no"])
  end.

(** [flask.cli.load_dotenv()]: the variables [dotenv] that python-dotenv
    reads from [.env] and [.flaskenv] (none when it is not installed or
    finds no file) are added to the environment; a variable already set
    keeps its value. *)
Definition load_dotenv (os_environ dotenv : gmap string string) : gmap string string :=
  os_environ ∪ dotenv.

(** [werkzeug.serving.is_running_from_reloader()] *)
Definition is_running_from_reloader (os_environ : gmap string string) : bool :=
  bool_decide (os_environ !! "WERKZEUG_RUN_MAIN" = Some "true").

(** [werkzeug.serving.run_simple(hostname, port, application)]: the socket
    [make_server] is asked for.  A reloader child serves on the descriptor
    named by [WERKZEUG_SERVER_FD], and raises when that variable is missing
    or not an integer ([None]); any other process binds the address. *)
Definition run_simple (os_environ : gmap string string) (hostname : string)
    (port : nat) : option ServerSocket :=
  if is_running_from_reloader os_environ then
    fd ← os_environ !! "WERKZEUG_SERVER_FD";
    fd ← Py.int fd;
    Some (inherited_fd fd)
  else Some (bind_address {| host := hostname; port := port |}).

(** [Flask.run(host, port)] under the process environment [os_environ] and
    the dotenv variables [dotenv].  [None] is an exception; [Some None] a
    return without serving, which is what happens when the [flask] command
    is what runs the program (it sets [FLASK_RUN_FROM_CLI]); [Some (Some s)]
    is the server started on [s].  A missing host falls back on
    [SERVER_NAME], then on 127.0.0.1; a missing port on [SERVER_NAME], then
    on 5000. *)
Definition run (app : Flask U) (os_environ dotenv : gmap string string)
    (host : option string) (port : option nat) : option (option ServerSocket) :=
  if decide (os_environ !! "FLASK_RUN_FROM_CLI" = Some "true") then Some None
  else
    let os_environ :=
      if get_load_dotenv os_environ then load_dotenv os_environ dotenv
      else os_environ in
    let sn_host := fst <$> SERVER_NAME (config app) in
    let sn_port := SERVER_NAME (config app) ≫= snd in
    let host :=
      match host with
      | Some h => if decide (h = "") then default "127.0.0.1" sn_host else h
      | None => default "127.0.0.1" sn_host
      end in
    let port :=
      match port with
      | Some p => p
      | None => default 5000 sn_port
      end in
    Some <$> run_simple os_environ host port.

End Application.

End FlaskFramework.

(** ** app.py *)

Module App.
Import Werkzeug FlaskFramework.

(** The functions the module defines with [def]. *)
Inductive def := def_hello | def_new_route.

#[global] Instance def_eq_dec : EqDecision def.
Proof. solve_decision. Defined.

(** [f.__name__] *)
Definition function_name (f : def) : string :=
  match f with
  | def_hello => "hello"
  | def_new_route => "new_route"
  end.

(** [def hello(): return "Hello, from Flask App updated!"] *)
Definition hello : M def string := mret "Hello, from Flask App updated!".

(** [def new_route(): return "This is a new route!"] *)
Definition new_route : M def string := mret "This is a new route!".

(** Calling one of the two functions.  Neither takes a parameter, so a
    keyword argument is a [TypeError], which Flask answers with 500. *)
Definition call_def (f : def) (kwargs : list (string * string)) : M def Outcome :=
  match kwargs with
  | [] =>
      match f with
      | def_hello => s ← hello; mret (return_str s)
      | def_new_route => s ← new_route; mret (return_str s)
      end
  | _ :: _ => mret (raise InternalServerError)
  end.

(** The statements of the module down to the last [def]:
    [app = Flask(__name__)] and the two decorated definitions.  [None]
    stands for an exception at import. *)
Definition module_app (__name__ : string) : option (Flask def) :=
  app ← Flask__init__ __name__;
  app ← route function_name "/" def_hello app;
  route function_name "/new" def_new_route app.

(** The whole module under the process environment [os_environ] and the
    dotenv variables [dotenv]: the application object and, when the module
    is the script being run, the socket that [app.run(host='0.0.0.0')]
    serves on, if it serves. *)
Definition module_body (os_environ dotenv : gmap string string) (__name__ : string)
    : option (Flask def * option ServerSocket) :=
  app ← module_app __name__;
  if decide (__name__ = "__main__")
  then served ← run app os_environ dotenv (Some "0.0.0.0") None; Some (app, served)
  else Some (app, None).

(** The methods every rule of this program ends up with: [GET] by
    default, [OPTIONS] from Flask, [HEAD] from Werkzeug. *)
Definition allowed : gset string := {["GET"; "OPTIONS"; "HEAD"]}.

(** The three rules of the finished [url_map]. *)
Definition static_rule : Rule :=
  {| rule := "/static/<path:filename>"; endpoint := "static";
     methods := allowed;
     strict_slashes := true; merge_slashes := true; websocket := false;
     provide_automatic_options := true |}.

Definition hello_rule : Rule :=
  {| rule := "/"; endpoint := "hello";
     methods := allowed;
     strict_slashes := true; merge_slashes := true; websocket := false;
     provide_automatic_options := true |}.

Definition new_route_rule : Rule :=
  {| rule := "/new"; endpoint := "new_route";
     methods := allowed;
     strict_slashes := true; merge_slashes := true; websocket := false;
     provide_automatic_options := true |}.

(** The application object once the module has been imported;
    [module_app_eq] below shows that [module_app] builds exactly this. *)
Definition app (__name__ : string) : Flask def :=
  {| import_name := __name__;
     static_folder := Some "static";
     static_url_path := "/static";
     config := default_config;
     url_map := [static_rule; hello_rule; new_route_rule];
     view_functions :=
       {[ "static" := send_static_file_view;
          "hello" := user_view def_hello;
          "new_route" := user_view def_new_route ]} |}.

(** A request with the given method and path and nothing else of note. *)
Definition request (method path : string) : Environ :=
  {| REQUEST_METHOD := method; PATH_INFO := path; QUERY_STRING := "";
     HTTP_HOST := "localhost:5000"; wsgi_url_scheme := "http";
     http_headers := []; wsgi_input := "" |}.

(** The same request carrying the headers of a websocket handshake. *)
Definition websocket_request (method path : string) : Environ :=
  {| REQUEST_METHOD := method; PATH_INFO := path; QUERY_STRING := "";
     HTTP_HOST := "localhost:5000"; wsgi_url_scheme := "http";
     http_headers := [("HTTP_CONNECTION", "Upgrade"); ("HTTP_UPGRADE", "websocket")];
     wsgi_input := "" |}.

(** A deployment without static files: every lookup is [NotFound]. *)
Definition no_static_files : string → string → Environ → Response + HTTPException :=
  λ _ _ _, inr NotFound.

(** The text each function returns. *)
Definition body_of (f : def) : string :=
  match f with
  | def_hello => "Hello, from Flask App updated!"
  | def_new_route => "This is a new route!"
  end.

(** The path in the decorator above each function. *)
Definition route_path (f : def) : string :=
  match f with
  | def_hello => "/"
  | def_new_route => "/new"
  end.

(** The rule each decorator adds. *)
Definition rule_of (f : def) : Rule :=
  match f with
  | def_hello => hello_rule
  | def_new_route => new_route_rule
  end.

(** A path the program registers, with its rule and its function. *)
Definition registered (p : string) (r : Rule) (f : def) : Prop :=
  (p = "/" ∧ r = hello_rule ∧ f = def_hello) ∨
  (p = "/new" ∧ r = new_route_rule ∧ f = def_new_route).

(** The answer to a request for the path of function [f], written as a
    function of the request method and of whether the request is matched as
    a websocket request; [handle_registered] below shows that this is what
    the application returns. *)
Definition answer (method : string) (is_websocket : bool) (f : def) : Response :=
  let r :=
    if decide (Py.upper method ∈ allowed) then
      if is_websocket then get_response WebsocketMismatch
      else if decide (Py.upper method = "OPTIONS")
      then {| status_code := 200; data := body_text ""; mimetype := "text/html";
              allow := allowed; location := None |}
      else Response_new (body_of f)
    else get_response (MethodNotAllowed allowed) in
  if decide (method = "HEAD")
  then {| status_code := status_code r; data := body_text "";
          mimetype := mimetype r; allow := allow r; location := location r |}
  else r.

Section Process.
(** The file system as the static-file view reads it. *)
Variable send_from_directory : string → string → Environ → Response + HTTPException.

(** The application called on one request. *)
Definition handle (environ : Environ) : M def Response :=
  wsgi_app call_def send_from_directory environ.

(** The server loop over a sequence of requests. *)
Definition serve (requests : list Environ) : M def (list Response) :=
  serve_forever call_def send_from_directory requests.

(** The states of the application object in a running instance: the one
    the module builds, and every one a handled request leaves behind. *)
Inductive running (__name__ : string) : Flask def → Prop :=
| running_start a :
    module_app __name__ = Some a → running __name__ a
| running_step a environ :
    running __name__ a → running __name__ (handle environ a).2.

(** The function, if any, that [dispatch_request] calls for a request. *)
Definition called (a : Flask def) (environ : Environ) : option (ViewFunction def) :=
  match resolve a environ with
  | call f _ => Some f
  | _ => None
  end.

End Process.

End App.


(** * Proofs *)

Import Py Werkzeug FlaskFramework App.

(** ** Strings: leading slashes and merged slashes *)

Lemma is_slash_true c : is_slash c = true ↔ c = slash.
Proof. unfold is_slash. apply Ascii.eqb_eq. Qed.

Lemma eqb_slash c : Ascii.eqb slash c = is_slash c.
Proof. unfold is_slash. apply Ascii.eqb_sym. Qed.

Lemma lstrip_slash_head s :
  match lstrip_slash s with
  | String c _ => is_slash c = false
  | EmptyString => True
  end.
Proof.
  induction s as [|c s IH]; cbn; [done|].
  destruct (is_slash c) eqn:Hc; [done|]. done.
Qed.

Lemma merge_slashes_sub_step c1 c2 rest :
  merge_slashes_sub (String c1 (String c2 rest)) =
    if is_slash c1 && is_slash c2 then merge_slashes_sub (String c2 rest)
    else String c1 (merge_slashes_sub (String c2 rest)).
Proof. reflexivity. Qed.

(** Merging keeps the first character. *)
Lemma merge_slashes_sub_head c s :
  ∃ kept, merge_slashes_sub (String c s) = String c kept.
Proof.
  revert c. induction s as [|c2 rest IH]; intros c1; [by eexists|].
  rewrite merge_slashes_sub_step. destruct (IH c2) as [kept Hk].
  destruct (is_slash c1 && is_slash c2) eqn:Hs; [|by eexists].
  apply andb_true_iff in Hs as [H1 H2].
  apply is_slash_true in H1 as ->. apply is_slash_true in H2 as ->.
  by eexists.
Qed.

Lemma merge_slashes_sub_cons q :
  match q with String c _ => is_slash c = false | EmptyString => True end →
  merge_slashes_sub (String slash q) = String slash (merge_slashes_sub q).
Proof.
  destruct q as [|c q]; [done|]. intros Hc. rewrite merge_slashes_sub_step.
  rewrite Hc, andb_false_r. done.
Qed.

Lemma merge_slashes_sub_slashless t q :
  slashless t = true → merge_slashes_sub q = t → q = t.
Proof.
  revert t. induction q as [|c1 tl IH]; intros t Ht; [done|].
  destruct tl as [|c2 rest]; [done|].
  rewrite merge_slashes_sub_step.
  destruct (is_slash c1 && is_slash c2) eqn:Hs.
  - apply andb_true_iff in Hs as [_ H2].
    destruct (merge_slashes_sub_head c2 rest) as [kept ->].
    intros <-. cbn in Ht. by rewrite H2 in Ht.
  - destruct t as [|a t]; [done|]. intros [= -> Hq].
    cbn in Ht. apply andb_true_iff in Ht as [_ Ht].
    f_equal. by apply IH.
Qed.

Lemma startswith_cons a p b s :
  startswith (String b s) (String a p) = if Ascii.eqb a b then startswith s p else false.
Proof. unfold startswith. cbn [removeprefix]. by destruct (Ascii.eqb a b). Qed.

Lemma startswith_merge_slashes_sub t q :
  slashless t = true →
  startswith (merge_slashes_sub q) (t +:+ "/") = true →
  startswith q (t +:+ "/") = true.
Proof.
  revert t. induction q as [|c1 tl IH]; intros t Ht; [done|].
  destruct tl as [|c2 rest]; [done|].
  rewrite merge_slashes_sub_step.
  destruct (is_slash c1 && is_slash c2) eqn:Hs.
  - apply andb_true_iff in Hs as [H1 H2].
    apply is_slash_true in H1 as ->. apply is_slash_true in H2 as ->.
    destruct (merge_slashes_sub_head slash rest) as [kept ->].
    destruct t as [|a t]; [done|].
    change (String a t +:+ "/") with (String a (t +:+ "/")).
    cbn in Ht. apply andb_true_iff in Ht as [Ha _]. apply negb_true_iff in Ha.
    unfold is_slash in Ha. by rewrite !startswith_cons, Ha.
  - destruct t as [|a t].
    + change ("" +:+ "/") with (String slash ""). by rewrite !startswith_cons.
    + change (String a t +:+ "/") with (String a (t +:+ "/")).
      cbn in Ht. apply andb_true_iff in Ht as [_ Ht].
      rewrite !(startswith_cons a). destruct (Ascii.eqb a c1); [|done].
      by apply IH.
Qed.

(** ** The matcher, for any list of rules *)

Lemma match_rules_nothing rules p m w noted :
  (∀ r, r ∈ rules → match_path r p = path_no_match) →
  match_rules rules p m w noted = (nothing, noted).
Proof.
  revert noted. induction rules as [|r rules IH]; intros noted Hall; [done|].
  cbn [match_rules]. rewrite (Hall r) by apply list_elem_of_here.
  apply IH. intros r' Hr'. apply Hall. rewrite elem_of_cons. by right.
Qed.

Lemma match_rules_found rules p m w noted r v noted' :
  match_rules rules p m w noted = (found r v, noted') →
  r ∈ rules ∧ m ∈ methods r ∧ websocket r = w ∧
  (match_path r p = path_match v ∨
   (match_path r p = path_lacks_slash ∧ strict_slashes r = false)).
Proof.
  revert noted. induction rules as [|r0 rules IH]; intros noted;
    cbn [match_rules]; [done|].
  assert (Hrec : ∀ n0, match_rules rules p m w n0 = (found r v, noted') →
            r ∈ r0 :: rules ∧ m ∈ methods r ∧ websocket r = w ∧
            (match_path r p = path_match v ∨
             (match_path r p = path_lacks_slash ∧ strict_slashes r = false))).
  { intros n0 H0. destruct (IH _ H0) as (Hin & Hm & Hw & Hp).
    rewrite elem_of_cons. auto. }
  destruct (match_path r0 p) eqn:Hp; [by apply Hrec | |].
  - destruct (bool_decide (websocket r0 = w)) eqn:Hw; [|by apply Hrec].
    destruct (bool_decide (m ∈ methods r0)) eqn:Hm; [|by apply Hrec].
    apply bool_decide_eq_true in Hw, Hm. cbn [andb].
    destruct (strict_slashes r0) eqn:Hs; [done|]. intros [= <- <- <-].
    split; [apply list_elem_of_here | auto].
  - case_decide; [|by apply Hrec]. case_decide; [|by apply Hrec].
    intros [= <- <- <-]. split; [apply list_elem_of_here | auto].
Qed.

Lemma matcher_match_ok rules p m w r v :
  matcher_match rules p m w = match_ok r v →
  r ∈ rules ∧ m ∈ methods r ∧ websocket r = w ∧
  (match_path r p = path_match v ∨
   (match_path r p = path_lacks_slash ∧ strict_slashes r = false)).
Proof.
  unfold matcher_match.
  destruct (match_rules rules p m w _) as [[r1 v1| |] n1] eqn:H1.
  - intros [= <- <-]. eapply match_rules_found, H1.
  - done.
  - destruct (match_rules rules (merge_slashes_sub p) m w n1) as [[r2 v2| |] n2];
      try done.
    by destruct (merge_slashes r2).
Qed.

Lemma matcher_match_nothing rules p m w :
  (∀ r, r ∈ rules → match_path r p = path_no_match) →
  (∀ r, r ∈ rules → match_path r (merge_slashes_sub p) = path_no_match) →
  matcher_match rules p m w =
    raise_NoMatch {| have_match_for := ∅; websocket_mismatch := false |}.
Proof.
  intros H1 H2. unfold matcher_match.
  rewrite (match_rules_nothing _ _ _ _ _ H1), (match_rules_nothing _ _ _ _ _ H2).
  done.
Qed.

(** ** The three rules of the program *)

Lemma module_app_eq name : module_app name = Some (app name).
Proof. vm_compute. reflexivity. Qed.

Lemma match_path_static p :
  match_path static_rule p =
    match removeprefix "/static/" p with
    | Some v => if path_converter_match v then path_match [("filename", v)] else path_no_match
    | None => path_no_match
    end.
Proof. reflexivity. Qed.

Lemma match_path_hello p :
  match_path hello_rule p =
    if decide (p = "/") then path_match []
    else if decide (p = "") then path_lacks_slash else path_no_match.
Proof.
  unfold match_path. change (parse_rule (rule hello_rule)) with (Some (static_pattern "/")).
  cbv beta iota. change (endswith_slash "/") with true. cbn [andb].
  repeat case_decide; subst; try done.
  - rewrite bool_decide_false; [done|]. destruct p as [|c [|c' p]]; [done | | ]; cbn; intros [= ]; done.
Qed.

Lemma match_path_new p :
  match_path new_route_rule p =
    if decide (p = "/new") then path_match [] else path_no_match.
Proof.
  unfold match_path. change (parse_rule (rule new_route_rule)) with (Some (static_pattern "/new")).
  cbv beta iota. change (endswith_slash "/new") with false. cbn [andb].
  repeat case_decide; subst; done.
Qed.

(** ** Handling a request does not assign the application object *)

Lemma handle_state sfd env a : (handle sfd env a).2 = a.
Proof.
  unfold handle, wsgi_app, full_dispatch_request, dispatch_request.
  unfold mbind, M_bind, bind, mret, M_ret, ret, get_app.
  destruct (resolve a env) as [e|r|r|f args]; try done.
  unfold call_view. destruct f as [|u].
  - unfold mbind, M_bind, bind, mret, M_ret, ret, get_app.
    destruct args as [|[k v] [|? ?]]; done.
  - unfold call_def. destruct args; [|done]. by destruct u.
Qed.

Lemma running_app sfd name a : running sfd name a → a = app name.
Proof.
  induction 1 as [a Ha|a env _ IH].
  - rewrite module_app_eq in Ha. congruence.
  - by rewrite handle_state.
Qed.


(** ** Routing and answers of the running application *)

Lemma allowed_union h : h ∪ allowed ∪ allowed = h ∪ allowed.
Proof. by rewrite <- (assoc_L (∪)), (idemp_L (∪) allowed). Qed.

Lemma allowed_nonempty : (∅ : gset string) ∪ allowed ≠ ∅.
Proof. by vm_compute. Qed.

Lemma adapter_websocket_environ name env :
  adapter_websocket (create_url_adapter (app name) env) = is_websocket env.
Proof. reflexivity. Qed.

(** One pass over the table for the path of function [f]. *)
Lemma match_rules_registered name f m w noted :
  match_rules (url_map (app name)) (route_path f) m w noted =
    if decide (m ∈ allowed) then
      if w then (nothing, {| have_match_for := have_match_for noted;
                             websocket_mismatch := true |})
      else (found (rule_of f) [], noted)
    else (nothing, {| have_match_for := have_match_for noted ∪ allowed;
                      websocket_mismatch := websocket_mismatch noted |}).
Proof.
  cbn [url_map app match_rules]. destruct f.
  - change (match_path static_rule (route_path def_hello)) with path_no_match.
    change (match_path hello_rule (route_path def_hello)) with (path_match []).
    change (match_path new_route_rule (route_path def_hello)) with path_no_match.
    change (methods hello_rule) with allowed.
    change (websocket hello_rule) with false. cbv beta iota.
    case_decide; [|done]. by destruct w.
  - change (match_path static_rule (route_path def_new_route)) with path_no_match.
    change (match_path hello_rule (route_path def_new_route)) with path_no_match.
    change (match_path new_route_rule (route_path def_new_route)) with (path_match []).
    change (methods new_route_rule) with allowed.
    change (websocket new_route_rule) with false. cbv beta iota.
    case_decide; [|done]. by destruct w.
Qed.

Lemma merge_slashes_sub_route_path f :
  merge_slashes_sub (route_path f) = route_path f.
Proof. by destruct f. Qed.

Lemma registered_route_path f : registered (route_path f) (rule_of f) f.
Proof. destruct f; [left | right]; done. Qed.


(** Matching on one of the two registered paths. *)
Lemma adapter_match_route_path name env mo f :
  path_part (PATH_INFO env) = route_path f →
  adapter_match (create_url_adapter (app name) env) mo =
    if decide (upper (default (REQUEST_METHOD env) mo) ∈ allowed)
    then (if is_websocket env then inr WebsocketMismatch else inl (rule_of f, []))
    else inr (MethodNotAllowed allowed).
Proof.
  intros Hpart. unfold adapter_match. rewrite adapter_websocket_environ.
  cbn [create_url_adapter map path_info default_method]. rewrite Hpart.
  set (m := upper _). unfold matcher_match.
  assert (Hall : allowed = ∅ ∪ allowed) by (symmetry; apply (left_id_L ∅ (∪))).
  rewrite match_rules_registered. destruct (decide (m ∈ allowed)) as [Hm|Hm].
  - destruct (is_websocket env); [|done].
    rewrite merge_slashes_sub_route_path, match_rules_registered.
    rewrite decide_True by done. cbn [have_match_for websocket_mismatch].
    by rewrite decide_True.
  - rewrite merge_slashes_sub_route_path, match_rules_registered.
    rewrite decide_False by done. cbn [have_match_for websocket_mismatch].
    rewrite allowed_union, decide_False by apply allowed_nonempty.
    by rewrite <- Hall.
Qed.

Lemma not_dashes_allowed : upper "--" ∉ allowed.
Proof. by vm_compute. Qed.


Lemma resolve_route_path name env f :
  path_part (PATH_INFO env) = route_path f →
  resolve (app name) env =
    if decide (upper (REQUEST_METHOD env) ∈ allowed) then
      if is_websocket env then raise_routing_exception WebsocketMismatch
      else if decide (upper (REQUEST_METHOD env) = "OPTIONS")
      then automatic_options (rule_of f) else call (user_view f) []
    else raise_routing_exception (MethodNotAllowed allowed).
Proof.
  intros Hp. unfold resolve, match_request.
  rewrite (adapter_match_route_path name env None f Hp).
  cbn [default]. case_decide; [|done].
  destruct (is_websocket env); [done|].
  assert (provide_automatic_options (rule_of f) = true) as -> by (by destruct f).
  cbn [andb]. rewrite bool_decide_decide. case_decide; [done|].
  destruct f; by vm_compute.
Qed.

Lemma handle_route_path sfd name env f :
  path_part (PATH_INFO env) = route_path f →
  handle sfd env (app name) =
    (answer (REQUEST_METHOD env) (is_websocket env) f, app name).
Proof.
  intros Hp.
  unfold handle, wsgi_app, full_dispatch_request, dispatch_request.
  unfold mbind, M_bind, bind, mret, M_ret, ret, get_app.
  rewrite (resolve_route_path name env f Hp).
  unfold answer, send_body.
  case_decide; [|done].
  destruct (is_websocket env); [done|].
  case_decide.
  - unfold make_response, make_default_options_response, allowed_methods.
    rewrite (adapter_match_route_path name env (Some "--") f Hp).
    cbn [default].
    destruct (decide (upper "--" ∈ allowed)) as [Hd|_]; [|done].
    by apply not_dashes_allowed in Hd.
  - unfold call_view, call_def. by destruct f.
Qed.



Lemma path_part_shape path_info :
  path_info ≠ "" →
  ∃ q, path_part path_info = String slash q ∧
       match q with String c _ => is_slash c = false | EmptyString => True end.
Proof.
  intros Hne. unfold path_part. rewrite decide_False by done.
  exists (lstrip_slash path_info). split; [done|]. apply lstrip_slash_head.
Qed.

Lemma startswith_false_removeprefix s p :
  startswith s p = false → removeprefix p s = None.
Proof. unfold startswith. by destruct (removeprefix p s). Qed.

Lemma rules_no_match p :
  p ≠ "" → p ≠ "/" → p ≠ "/new" → startswith p "/static/" = false →
  ∀ r, r ∈ [static_rule; hello_rule; new_route_rule] → match_path r p = path_no_match.
Proof.
  intros H0 H1 H2 H3 r Hr.
  rewrite !elem_of_cons, elem_of_nil in Hr. destruct Hr as [->|[->|[->|[]]]].
  - rewrite match_path_static, (startswith_false_removeprefix _ _ H3). done.
  - rewrite match_path_hello, !decide_False by done. done.
  - rewrite match_path_new, decide_False by done. done.
Qed.

Lemma match_request_not_found name env :
  PATH_INFO env ≠ "" →
  path_part (PATH_INFO env) ≠ "/" →
  path_part (PATH_INFO env) ≠ "/new" →
  startswith (path_part (PATH_INFO env)) "/static/" = false →
  match_request (app name) env = inr NotFound.
Proof.
  intros Hne H1 H2 H3. unfold match_request, adapter_match.
  cbn [create_url_adapter map path_info default_method].
  destruct (path_part_shape _ Hne) as (q & Hq & Hhead). rewrite Hq in *.
  rewrite matcher_match_nothing; [done| |].
  - cbn [url_map app]. by apply rules_no_match.
  - cbn [url_map app]. rewrite (merge_slashes_sub_cons q Hhead).
    apply rules_no_match.
    + done.
    + intros [= Hm]. apply (merge_slashes_sub_slashless "") in Hm; [|done]. by subst q.
    + intros [= Hm]. apply (merge_slashes_sub_slashless "new") in Hm; [|done]. by subst q.
    + destruct (startswith (String slash (merge_slashes_sub q)) "/static/") eqn:Hs; [|done].
      rewrite <- H3. symmetry.
      change "/static/" with (String slash ("static" +:+ "/")) in *.
      rewrite startswith_cons in *. change (Ascii.eqb slash slash) with true in *.
      cbv iota in *. by apply startswith_merge_slashes_sub.
Qed.



(** ** The claims *)

Section Claims.
Context (send_from_directory : string → string → Environ → Response + HTTPException).

Abbreviation handle := (handle send_from_directory).
Abbreviation serve := (serve send_from_directory).
Abbreviation running := (running send_from_directory).





(** C5, as amended.  Throughout the life of a running instance the route
    table holds exactly three rules: the static-file rule that the [Flask]
    constructor registers, then "/" for [hello] and "/new" for
    [new_route]. *)
Theorem route_table_fixed name a :
  running name a →
  (λ r, (rule r, endpoint r)) <$> url_map a =
    [("/static/<path:filename>", "static"); ("/", "hello"); ("/new", "new_route")].
Proof. intros Hrun. by rewrite (running_app _ _ _ Hrun). Qed.


(** C7.  Handling a request leaves the application object (route table,
    view functions, configuration) exactly as it was. *)
Theorem request_leaves_application_unchanged environ a :
  (handle environ a).2 = a.
Proof. apply handle_state. Qed.



End Claims.

(** C8, as amended.  Run as a script (the module's name is "__main__") in
    a process that neither the [flask] command started
    ([FLASK_RUN_FROM_CLI]) nor a reloader ([WERKZEUG_RUN_MAIN], set in the
    environment or by a dotenv file), the program has the server bind host
    "0.0.0.0" and the framework's default port 5000, whatever else the
    environment and the dotenv files hold. *)
Theorem script_binds_all_interfaces os_environ dotenv :
  os_environ !! "FLASK_RUN_FROM_CLI" ≠ Some "true" →
  os_environ !! "WERKZEUG_RUN_MAIN" ≠ Some "true" →
  dotenv !! "WERKZEUG_RUN_MAIN" ≠ Some "true" →
  module_body os_environ dotenv "__main__" =
    Some (app "__main__",
          Some (bind_address {| host := "0.0.0.0"; port := 5000 |})).
Proof.
  intros Hcli Henv Hdot. unfold module_body. rewrite module_app_eq.
  cbn [mbind option_bind]. rewrite decide_True by done.
  unfold run. rewrite decide_False by done.
  set (env' := if get_load_dotenv os_environ then _ else _).
  assert (Hmain : is_running_from_reloader env' = false).
  { unfold is_running_from_reloader. apply bool_decide_eq_false.
    subst env'. destruct (get_load_dotenv os_environ); [|done].
    unfold load_dotenv. intros Hu.
    apply lookup_union_Some_raw in Hu as [Hu|[_ Hu]]; done. }
  unfold run_simple. rewrite Hmain. done.
Qed.

(** ** The claims at concrete requests *)

Lemma running_main : running no_static_files "__main__" (app "__main__").
Proof. apply running_start. vm_compute. reflexivity. Defined.









(** C5 fails as stated: the table the module builds has three rules, the
    first of which is the static-file rule. *)
Lemma route_table_has_static_rule :
  (λ a, rule <$> url_map a) <$> module_app "__main__" =
    Some ["/static/<path:filename>"; "/"; "/new"] ∧
  (λ a, length (url_map a)) <$> module_app "__main__" ≠ Some 2.
Proof.
  split.
  - vm_compute. reflexivity.
  - vm_compute. discriminate.
Qed.

Lemma route_table_fixed_witness :
  (λ r, (rule r, endpoint r)) <$>
    url_map (handle no_static_files (request "GET" "/") (app "__main__")).2 =
    [("/static/<path:filename>", "static"); ("/", "hello"); ("/new", "new_route")].
Proof.
  apply (route_table_fixed no_static_files "__main__").
  apply running_step. apply running_main.
Defined.



(** C8 fails as stated: run as a script in a process whose environment
    holds FLASK_RUN_FROM_CLI=true, the program returns from [app.run]
    without starting a server. *)
Lemma script_under_cli_marker_starts_no_server :
  module_body {[ "FLASK_RUN_FROM_CLI" := "true" ]} ∅ "__main__" =
    Some (app "__main__", None).
Proof. vm_compute. reflexivity. Qed.

Lemma script_binds_all_interfaces_witness :
  module_body {[ "PATH" := "/usr/bin" ]} {[ "FLASK_DEBUG" := "1" ]} "__main__" =
    Some (app "__main__",
          Some (bind_address {| host := "0.0.0.0"; port := 5000 |})).
Proof.
  apply (script_binds_all_interfaces {[ "PATH" := "/usr/bin" ]} {[ "FLASK_DEBUG" := "1" ]}).
  - vm_compute. discriminate.
  - vm_compute. discriminate.
  - vm_compute. discriminate.
Defined.





(** Further requests, evaluated. *)

Example get_new_with_trailing_slash :
  status_code (handle no_static_files (request "GET" "/new/") (app "__main__")).1 = 404.
Proof. vm_compute. reflexivity. Qed.

Example options_root :
  let response := (handle no_static_files (request "OPTIONS" "/") (app "__main__")).1 in
  status_code response = 200 ∧ allow response = {["GET"; "OPTIONS"; "HEAD"]}.
Proof. split; vm_compute; reflexivity. Qed.

Example head_root_has_no_body :
  data (handle no_static_files (request "HEAD" "/") (app "__main__")).1 = body_text "".
Proof. vm_compute. reflexivity. Qed.

Example imported_module_starts_no_server :
  module_body ∅ ∅ "app" = Some (app "app", None).
Proof. vm_compute. reflexivity. Qed.

Example reloader_child_serves_on_inherited_socket :
  module_body {[ "WERKZEUG_RUN_MAIN" := "true"; "WERKZEUG_SERVER_FD" := "4" ]} ∅
    "__main__" = Some (app "__main__", Some (inherited_fd 4)).
Proof. vm_compute. reflexivity. Qed.

(** ** Further properties of the program *)



Lemma handle_routing_exception sfd a environ e :
  match_request a environ = inr e →
  handle sfd environ a = (send_body environ (get_response e), a).
Proof.
  intros He. unfold handle, wsgi_app, full_dispatch_request, dispatch_request.
  unfold mbind, M_bind, bind, mret, M_ret, ret, get_app.
  unfold resolve. rewrite He. done.
Qed.

Lemma status_code_send_body environ r :
  status_code (send_body environ r) = status_code r.
Proof. unfold send_body. by case_decide. Qed.

Lemma match_request_empty_path name environ :
  PATH_INFO environ = "" →
  ∃ e, match_request (app name) environ = inr e ∧ (code e = 308 ∨ code e = 404).
Proof.
  intros Hp. unfold match_request, adapter_match.
  rewrite adapter_websocket_environ.
  cbn [create_url_adapter map path_info default_method default]. rewrite Hp.
  change (path_part "") with "". set (m := upper _). set (w := is_websocket _).
  assert (Hpass : ∀ noted, match_rules (url_map (app name)) "" m w noted =
            if bool_decide (false = w) && bool_decide (m ∈ allowed)
            then (slash_required, noted) else (nothing, noted)).
  { intros noted. cbn [url_map app match_rules].
    change (match_path static_rule "") with path_no_match.
    change (match_path hello_rule "") with path_lacks_slash.
    change (match_path new_route_rule "") with path_no_match.
    change (methods hello_rule) with allowed.
    change (websocket hello_rule) with false.
    change (strict_slashes hello_rule) with true. cbv beta iota.
    by destruct (_ && _). }
  unfold matcher_match. rewrite Hpass.
  destruct (bool_decide (false = w) && bool_decide (m ∈ allowed)) eqn:Hd.
  - eexists. split; [reflexivity|]. by left.
  - change (merge_slashes_sub "") with "". rewrite Hpass.
    cbn [have_match_for websocket_mismatch].
    rewrite decide_True by done. eexists. split; [reflexivity|]. by right.
Qed.

Lemma status_code_answer method w f :
  status_code (answer method w f) =
    if decide (upper method ∈ allowed) then (if w then 400 else 200) else 405.
Proof. unfold answer. destruct w; repeat case_decide; done. Qed.

Lemma handle_not_registered sfd name environ :
  PATH_INFO environ ≠ "" →
  path_part (PATH_INFO environ) ≠ "/" →
  path_part (PATH_INFO environ) ≠ "/new" →
  startswith (path_part (PATH_INFO environ)) "/static/" = false →
  handle sfd environ (app name) = (send_body environ (get_response NotFound), app name).
Proof.
  intros. apply handle_routing_exception. by apply match_request_not_found.
Qed.

(** The rule that matched a path outside [/static/] is not the static rule. *)
Lemma resolve_outside_static name environ args :
  startswith (path_part (PATH_INFO environ)) "/static/" = false →
  resolve (app name) environ ≠ call send_static_file_view args.
Proof.
  intros Hs. unfold resolve, match_request, adapter_match.
  cbn [create_url_adapter map path_info default_method default].
  destruct (matcher_match _ _ _ _) as [r v| |] eqn:Hm;
    [|done|by repeat case_match].
  apply matcher_match_ok in Hm as (Hin & _ & _ & Hp).
  destruct (_ && _); [done|].
  destruct (view_functions (app name) !! endpoint r) as [g|] eqn:Hv; [|done].
  intros [= -> ->].
  cbn [url_map app] in Hin. rewrite !elem_of_cons, elem_of_nil in Hin.
  destruct Hin as [->|[->|[->|[]]]]; [|by vm_compute in Hv..].
  rewrite match_path_static in Hp. unfold startswith in Hs.
  destruct (removeprefix "/static/" _); [done|].
  by destruct Hp as [Hp|[Hp _]].
Qed.

Section Extras.
Context (send_from_directory : string → string → Environ → Response + HTTPException).

Abbreviation handle := (handle send_from_directory).
Abbreviation serve := (serve send_from_directory).
Abbreviation running := (running send_from_directory).

(** X1.  Imported under any name other than "__main__", the module builds
    the application and starts no server, whatever the process environment
    and the dotenv files hold; the import does not raise. *)
Theorem import_starts_no_server os_environ dotenv name :
  name ≠ "__main__" →
  module_body os_environ dotenv name = Some (app name, None).
Proof.
  intros Hn. unfold module_body. rewrite module_app_eq. cbn [mbind option_bind].
  by rewrite decide_False.
Qed.

(** X2.  In a running instance every rule of the route table has a view
    function: "/" is bound to [hello], "/new" to [new_route], and the
    remaining rule to the static-file view. *)
Theorem every_rule_has_its_view name a r :
  running name a →
  r ∈ url_map a →
  view_functions a !! endpoint r =
    Some (if decide (rule r = "/") then user_view def_hello
          else if decide (rule r = "/new") then user_view def_new_route
          else send_static_file_view).
Proof.
  intros Hrun. rewrite (running_app _ _ _ Hrun). cbn [url_map app].
  rewrite !elem_of_cons, elem_of_nil.
  intros [->|[->|[->|[]]]]; vm_compute; reflexivity.
Qed.




(** X6.  The server loop answers each request of a sequence exactly as if
    it were the only one, and ends with the application object it started
    with. *)
Theorem serve_answers_each_request_alone requests a :
  serve requests a = ((λ environ, (handle environ a).1) <$> requests, a).
Proof.
  revert a. induction requests as [|environ requests IH]; intros a; [done|].
  unfold App.serve in *. cbn [serve_forever fmap list_fmap].
  unfold mbind, M_bind, bind, mret, M_ret, ret.
  pose proof (handle_state send_from_directory environ a) as Hs.
  unfold App.handle in *.
  destruct (wsgi_app call_def send_from_directory environ a) as [r a1].
  cbn in Hs. subst a1. rewrite IH. done.
Qed.

(** X7.  Outside [/static/] the application answers with one of five
    statuses, 200, 308, 400, 404 or 405; in particular never with a 5xx. *)
Theorem status_is_one_of_five name a environ :
  running name a →
  startswith (path_part (PATH_INFO environ)) "/static/" = false →
  status_code (handle environ a).1 ∈ [200; 308; 400; 404; 405].
Proof.
  intros Hrun Hs. rewrite (running_app _ _ _ Hrun).
  rewrite !elem_of_cons.
  destruct (decide (PATH_INFO environ = "")) as [He|Hne].
  - destruct (match_request_empty_path name environ He) as (e & Hm & Hc).
    rewrite (handle_routing_exception _ _ _ _ Hm). cbn [fst].
    rewrite status_code_send_body. cbn [get_response status_code]. tauto.
  - destruct (decide (path_part (PATH_INFO environ) = "/")) as [H1|H1];
      [|destruct (decide (path_part (PATH_INFO environ) = "/new")) as [H2|H2]].
    + rewrite (handle_route_path _ name environ def_hello) by done.
      cbn [fst]. rewrite status_code_answer.
      case_decide; [destruct (is_websocket environ)|]; tauto.
    + rewrite (handle_route_path _ name environ def_new_route) by done.
      cbn [fst]. rewrite status_code_answer.
      case_decide; [destruct (is_websocket environ)|]; tauto.
    + rewrite handle_not_registered by done. cbn [fst].
      rewrite status_code_send_body. cbn. tauto.
Qed.


(** X10.  A websocket handshake on a registered path, with a method the
    route accepts, is refused with status 400, and the function is not
    called. *)
Theorem websocket_handshake_is_refused name a environ f :
  running name a →
  path_part (PATH_INFO environ) = route_path f →
  upper (REQUEST_METHOD environ) ∈ allowed →
  is_websocket environ = true →
  called a environ = None ∧
  status_code (handle environ a).1 = 400.
Proof.
  intros Hrun Hpp Hm Hw. rewrite (running_app _ _ _ Hrun).
  unfold called.
  rewrite (resolve_route_path name environ f Hpp),
    (handle_route_path _ name environ f Hpp).
  cbn [fst]. rewrite status_code_answer, Hw, !decide_True by done.
  done.
Qed.

End Extras.

(** X9.  Outside [/static/] the answer does not depend on the file system:
    two deployments with different static files give the same response. *)
Theorem response_ignores_file_system sfd1 sfd2 name environ :
  startswith (path_part (PATH_INFO environ)) "/static/" = false →
  App.handle sfd1 environ (app name) = App.handle sfd2 environ (app name).
Proof.
  intros Hs.
  unfold App.handle, wsgi_app, full_dispatch_request, dispatch_request.
  unfold mbind, M_bind, bind, mret, M_ret, ret, get_app.
  pose proof (resolve_outside_static name environ) as Hns.
  destruct (resolve (app name) environ) as [e|r|r|[|u] args]; try done.
  by destruct (Hns args Hs).
Qed.

(** ** These properties at concrete requests *)

Lemma import_starts_no_server_witness :
  module_body ∅ ∅ "app" = Some (app "app", None).
Proof.
  apply (import_starts_no_server ∅ ∅ "app").
  vm_compute. discriminate.
Defined.

Lemma every_rule_has_its_view_witness :
  view_functions (app "__main__") !! endpoint new_route_rule =
    Some (if decide (rule new_route_rule = "/") then user_view def_hello
          else if decide (rule new_route_rule = "/new") then user_view def_new_route
          else send_static_file_view).
Proof.
  apply (every_rule_has_its_view no_static_files "__main__" (app "__main__")
           new_route_rule).
  - apply running_main.
  - apply list_elem_of_further, list_elem_of_further, list_elem_of_here.
Defined.




Lemma status_is_one_of_five_witness :
  status_code (App.handle no_static_files (websocket_request "HEAD" "//") (app "__main__")).1
    ∈ [200; 308; 400; 404; 405].
Proof.
  apply (status_is_one_of_five no_static_files "__main__" (app "__main__")
           (websocket_request "HEAD" "//")).
  - apply running_main.
  - reflexivity.
Defined.


Lemma websocket_handshake_is_refused_witness :
  called (app "__main__") (websocket_request "OPTIONS" "/new") = None ∧
  status_code
    (App.handle no_static_files (websocket_request "OPTIONS" "/new") (app "__main__")).1 = 400.
Proof.
  apply (websocket_handshake_is_refused no_static_files "__main__" (app "__main__")
           (websocket_request "OPTIONS" "/new") def_new_route).
  - apply running_main.
  - reflexivity.
  - vm_compute. reflexivity.
  - reflexivity.
Defined.

Lemma response_ignores_file_system_witness :
  App.handle no_static_files (request "GET" "/new") (app "__main__") =
  App.handle (λ _ _ _, inl (Response_new "body { margin: 0 }"))
    (request "GET" "/new") (app "__main__").
Proof.
  apply (response_ignores_file_system no_static_files _ "__main__" (request "GET" "/new")).
  reflexivity.
Defined.

Example put_double_slash_not_allowed :
  status_code (App.handle no_static_files (request "PUT" "//") (app "__main__")).1 = 405.
Proof. vm_compute. reflexivity. Qed.

Example websocket_head_double_slash_refused :
  status_code
    (App.handle no_static_files (websocket_request "HEAD" "//") (app "__main__")).1 = 400.
Proof. vm_compute. reflexivity. Qed.
